(** * The allocator of duckdb/common/allocator.cpp, embedded in Rocq

    The development follows the canonical variant of the file (the one that
    throws, owns its allocator by pointer and carries the debug
    instrumentation).  Pointers are addresses in [Z] with [0] for [nullptr];
    [idx_t] is an unsigned 64-bit integer, kept in [Z] with the wrap-around
    of the outstanding-byte counter written out.

    The mutex [mtx] and the console output of [ReallocateData] do not
    appear: the model is sequential and the console is not part of the
    state. *)

From Stdlib Require Import ZArith Lia.
From stdpp Require Import base option list gmap strings.

Local Open Scope Z_scope.

(** ** Build configurations

    [DEBUG] and [DUCKDB_DEBUG_ALLOCATION] are given to the compiler or not;
    [LEMON_MALLOC] is defined by line 25 of the file itself, in every
    build.  The functions below keep the lines under [#ifndef LEMON_MALLOC]
    in the branch of the test of [LEMON_MALLOC] that is never taken, as the
    preprocessor leaves them out. *)

Record build : Type := {
  DEBUG : bool;
  DUCKDB_DEBUG_ALLOCATION : bool
}.

(** Line 25. *)
Definition LEMON_MALLOC (b : build) : bool := true.

(** The file compiled with neither flag given. *)
Definition as_written : build :=
  {| DEBUG := false; DUCKDB_DEBUG_ALLOCATION := false |}.

(** *** Which builds compile

    The local variables of [AllocateData] and [ReallocateData] are declared
    and used under different preprocessor guards.  The lists below hold, in
    the order of the lines, every declaration and use of a local variable
    with the guard it stands under; a body compiles when each use comes
    after a declaration that the preprocessor kept. *)

Inductive guard : Type :=
| unguarded
| ifdef_DEBUG
| ifdef_LEMON_MALLOC
| ifndef_LEMON_MALLOC.

Inductive mention : Type :=
| declares (name : string)
| uses (name : string).

Definition enabled (b : build) (g : guard) : bool :=
  match g with
  | unguarded => true
  | ifdef_DEBUG => DEBUG b
  | ifdef_LEMON_MALLOC => LEMON_MALLOC b
  | ifndef_LEMON_MALLOC => negb (LEMON_MALLOC b)
  end.

Fixpoint preprocess (b : build) (body : list (guard * mention)) : list mention :=
  match body with
  | [] => []
  | (g, m) :: rest =>
      if enabled b g then m :: preprocess b rest else preprocess b rest
  end.

Fixpoint well_scoped (declared : list string) (body : list mention) : bool :=
  match body with
  | [] => true
  | declares name :: rest => well_scoped (name :: declared) rest
  | uses name :: rest =>
      existsb (String.eqb name) declared && well_scoped declared rest
  end.

(** [result] in lines 136, 140, 143, 149 and 153. *)
Definition AllocateData_locals : list (guard * mention) :=
  [ (ifndef_LEMON_MALLOC, declares "result");
    (ifdef_DEBUG, uses "result");
    (ifndef_LEMON_MALLOC, uses "result");
    (ifdef_LEMON_MALLOC, declares "result");
    (unguarded, uses "result") ].

(** [new_pointer] in lines 186, 191, 194 and 197; [new_addr] in lines 203,
    204 and 207. *)
Definition ReallocateData_locals : list (guard * mention) :=
  [ (ifndef_LEMON_MALLOC, declares "new_pointer");
    (ifdef_DEBUG, uses "new_pointer");
    (ifndef_LEMON_MALLOC, uses "new_pointer");
    (ifndef_LEMON_MALLOC, uses "new_pointer");
    (ifdef_LEMON_MALLOC, declares "new_addr");
    (ifdef_LEMON_MALLOC, uses "new_addr");
    (ifdef_LEMON_MALLOC, uses "new_addr") ].

Definition compiles (b : build) : bool :=
  well_scoped [] (preprocess b AllocateData_locals) &&
  well_scoped [] (preprocess b ReallocateData_locals).

(** ** Failures *)

(** The three [InternalException]s the file throws, by throw site:
    - line 36, "AllocatedData object constructed with nullptr";
    - line 131, "Requested allocation size of %llu is out of range -
      maximum allocation size is %llu";
    - line 181, "Requested re-allocation size of %llu is out of range -
      maximum allocation size is %llu". *)
Inductive internal_error : Type :=
| ConstructedWithNullptr
| AllocationOutOfRange (size maximum : Z)
| ReallocationOutOfRange (size maximum : Z).

Inductive exception : Type :=
| InternalException (what : internal_error)
| bad_alloc.

(** How a call ends: it returns, it throws, a [D_ASSERT] fails, or it runs
    into undefined behaviour (an access outside a live region, a null
    dereference). *)
Inductive result (A : Type) : Type :=
| Val (a : A)
| Throw (e : exception)
| AssertionFailed
| Undefined.

Arguments Val {A} a.
Arguments Throw {A} e.
Arguments AssertionFailed {A}.
Arguments Undefined {A}.

(** Modelled from the spec: the error kinds of section 7 (exception.hpp is
    not among the sources).  A null pointer given to an Owned Buffer is
    [InvalidArgument], a size at or above the ceiling is
    [SizeLimitExceeded], a null from the backend is [OutOfMemory], a failed
    consistency check is [InternalConsistency]. *)
Inductive error_kind : Type :=
| InvalidArgument
| SizeLimitExceeded
| OutOfMemory
| InternalConsistency.

Definition kind_of_exception (e : exception) : error_kind :=
  match e with
  | InternalException ConstructedWithNullptr => InvalidArgument
  | InternalException (AllocationOutOfRange _ _) => SizeLimitExceeded
  | InternalException (ReallocationOutOfRange _ _) => SizeLimitExceeded
  | bad_alloc => OutOfMemory
  end.

Definition error_of {A} (r : result A) : option error_kind :=
  match r with
  | Val _ => None
  | Throw e => Some (kind_of_exception e)
  | AssertionFailed => Some InternalConsistency
  | Undefined => None
  end.

(** ** State and failure, threaded through the calls *)

Definition M (S A : Type) : Type := S → result A * S.

Global Instance M_ret {S} : MRet (M S) := λ A a s, (Val a, s).

Global Instance M_bind {S} : MBind (M S) := λ A B f m s,
  match m s with
  | (Val a, s') => f a s'
  | (Throw e, s') => (Throw e, s')
  | (AssertionFailed, s') => (AssertionFailed, s')
  | (Undefined, s') => (Undefined, s')
  end.

Definition throw {S A} (e : exception) : M S A := λ s, (Throw e, s).
Definition get {S} : M S S := λ s, (Val s, s).
Definition modify {S} (f : S → S) : M S unit := λ s, (Val tt, f s).
Definition when {S} (c : bool) (m : M S unit) : M S unit :=
  if c then m else mret tt.

(** Modelled from the spec: [D_ASSERT] (assert.hpp is not among the
    sources).  Consistency checks are made in debug builds only, where a
    failed one is fatal; production builds compile them out. *)
Definition D_ASSERT {S} (b : build) (condition : bool) : M S unit :=
  λ s, if DEBUG b && negb condition then (AssertionFailed, s) else (Val tt, s).

(** ** Memory *)

Definition nullptr : Z := 0.

(** A byte of memory: indeterminate after allocation, or a value. *)
Inductive memval : Type :=
| Undef
| Byte (b : Z).

(** The regions handed out by the pool allocator, by base address. *)
Abbreviation heap_t := (gmap Z (list memval)).

(** [memcpy(dst, src, n)] between two regions given by their bases: [n]
    bytes must lie inside the source and inside the destination, and the
    two must be different regions. *)
Definition memcpy (dst src n : Z) (h : heap_t) : option heap_t :=
  s ← h !! src;
  d ← h !! dst;
  if decide (dst ≠ src ∧ 0 ≤ n ∧ n ≤ Z.of_nat (length s) ∧ n ≤ Z.of_nat (length d))
  then Some (<[dst := take (Z.to_nat n) s ++ drop (Z.to_nat n) d]> h)
  else None.

(** The calls that reach a backend, most recent first. *)
Inductive backend_call : Type :=
| allocate_call (size : Z)
| free_call (pointer size : Z)
| reallocate_call (pointer old_size size : Z)
| lemon_malloc_call (size : Z)
| lemon_free_call (pointer : Z).

Definition is_release (c : backend_call) : bool :=
  match c with
  | free_call _ _ | lemon_free_call _ => true
  | _ => false
  end.

(** ** Debug info (lines 69-88, 224-272) *)

Definition idx_max : Z := 2 ^ 64.

Record AllocatorDebugInfo : Type := {
  allocation_count : Z;
  pointers : gmap Z (Z * string)
}.

Record PrivateAllocatorData : Type := {
  debug_info : option AllocatorDebugInfo
}.

(** ** What the file takes from outside *)

(** The flags of the build and the text [Exception::GetStackTrace] yields:
    all that the methods of the debug info depend on. *)
Class Settings : Type := {
  bld : build;
  GetStackTrace : string
}.

(** A platform the file is built on: settings under which it compiles; the
    size ceiling of allocator.hpp (not among the sources, so a parameter);
    the state of the function-table backend; and the state of the pool
    allocator [vmm] with its two operations (lemon.h is not among the
    sources: the operations are parameters that choose addresses). *)
Class Platform : Type := {
  settings :: Settings;
  builds : compiles bld = true;
  MAXIMUM_ALLOC_SIZE : Z;
  backend_t : Type;
  vmm_t : Type;
  lemon_malloc : vmm_t → Z → Z * vmm_t;
  lemon_free : vmm_t → Z → vmm_t
}.

Section DebugInfo.

Context {S : Settings}.

(** *** AllocatorDebugInfo *)

(** Lines 225-227. *)
Definition AllocatorDebugInfo_new : AllocatorDebugInfo :=
  {| allocation_count := 0; pointers := ∅ |}.

(** Lines 245-251. *)
Definition DebugInfo_AllocateData (pointer size : Z) : M AllocatorDebugInfo unit :=
  modify (λ d, {| allocation_count := (allocation_count d + size) mod idx_max;
                  pointers := pointers d |});;
  when (DUCKDB_DEBUG_ALLOCATION bld)
    (modify (λ d, {| allocation_count := allocation_count d;
                     pointers := <[pointer := (size, GetStackTrace)]> (pointers d) |})).

(** Lines 253-265.  [pointers[pointer]] on a missing key yields a default
    entry, of size 0. *)
Definition DebugInfo_FreeData (pointer size : Z) : M AllocatorDebugInfo unit :=
  d ← get;
  D_ASSERT bld (size <=? allocation_count d);;
  modify (λ d, {| allocation_count := (allocation_count d - size) mod idx_max;
                  pointers := pointers d |});;
  when (DUCKDB_DEBUG_ALLOCATION bld)
    (d ← get;
     D_ASSERT bld (bool_decide (is_Some (pointers d !! pointer)));;
     D_ASSERT bld (default 0 (fst <$> pointers d !! pointer) =? size);;
     modify (λ d, {| allocation_count := allocation_count d;
                     pointers := delete pointer (pointers d) |})).

(** Lines 267-270. *)
Definition DebugInfo_ReallocateData (pointer new_pointer old_size new_size : Z)
  : M AllocatorDebugInfo unit :=
  DebugInfo_FreeData pointer old_size;;
  DebugInfo_AllocateData new_pointer new_size.

(** The debug info after an allocation, and after a free, were recorded. *)
Definition recorded (d : AllocatorDebugInfo) (pointer size : Z) : AllocatorDebugInfo :=
  {| allocation_count := (allocation_count d + size) mod idx_max;
     pointers := if DUCKDB_DEBUG_ALLOCATION bld
                 then <[pointer := (size, GetStackTrace)]> (pointers d)
                 else pointers d |}.

Definition forgotten (d : AllocatorDebugInfo) (pointer size : Z) : AllocatorDebugInfo :=
  {| allocation_count := (allocation_count d - size) mod idx_max;
     pointers := if DUCKDB_DEBUG_ALLOCATION bld
                 then delete pointer (pointers d)
                 else pointers d |}.

(** The conditions [DebugInfo_FreeData] asserts. *)
Definition tracked (d : AllocatorDebugInfo) (pointer size : Z) : Prop :=
  size ≤ allocation_count d ∧
  (DUCKDB_DEBUG_ALLOCATION bld = true →
   ∃ trace, pointers d !! pointer = Some (size, trace)).

(** *** Teardown (lines 228-243) *)

(** What the destructor of the debug info prints before it asserts: in the
    extended build, every registered pointer with its size and stack trace
    when the counter is not zero.  The order of the lines is that of an
    unordered map, so the report is kept as a map. *)
Definition leak_report (d : AllocatorDebugInfo) : gmap Z (Z * string) :=
  if DUCKDB_DEBUG_ALLOCATION bld && negb (allocation_count d =? 0)
  then pointers d
  else ∅.

(** Lines 228-243, without the console. *)
Definition AllocatorDebugInfo_destroy : M AllocatorDebugInfo unit :=
  d ← get;
  D_ASSERT bld (allocation_count d =? 0).

(** The bytes the registry accounts for, and the relation the extended
    build keeps between the registry and the counter ("the number of bytes
    that are outstanding", line 79). *)
Definition registered_bytes (m : gmap Z (Z * string)) : Z :=
  map_fold (λ _ entry total, entry.1 + total) 0 m.

Definition counter_matches_registry (d : AllocatorDebugInfo) : Prop :=
  allocation_count d = registered_bytes (pointers d) mod idx_max.

End DebugInfo.

Section Allocator.

Context {P : Platform}.

(** *** Allocator *)

(** The three backend operations act on the backend's own state, which
    stands for the context [private_data.get()] points to together with the
    memory the backend manages. *)
Record Allocator : Type := {
  allocate_function : backend_t → Z → Z * backend_t;
  free_function : backend_t → Z → Z → backend_t;
  reallocate_function : backend_t → Z → Z → Z → Z * backend_t;
  private_data : option PrivateAllocatorData
}.

(** What lies outside the allocator object: the backend's state, the global
    [vmm] with the memory it handed out, and the record of backend calls. *)
Record globals : Type := {
  backend : backend_t;
  vmm : vmm_t;
  heap : heap_t;
  calls : list backend_call
}.

Definition state : Type := Allocator * globals.

Definition set_private_data (a : Allocator) (pd : option PrivateAllocatorData) : Allocator :=
  {| allocate_function := allocate_function a;
     free_function := free_function a;
     reallocate_function := reallocate_function a;
     private_data := pd |}.

(** Lines 109-122.  In a debug build the constructor makes the private data
    when none is given and installs a fresh debug info. *)
Definition Allocator_new (allocate_function_p : backend_t → Z → Z * backend_t)
    (free_function_p : backend_t → Z → Z → backend_t)
    (reallocate_function_p : backend_t → Z → Z → Z → Z * backend_t)
    (private_data_p : option PrivateAllocatorData) : Allocator :=
  {| allocate_function := allocate_function_p;
     free_function := free_function_p;
     reallocate_function := reallocate_function_p;
     private_data :=
       if DEBUG bld
       then Some {| debug_info := Some AllocatorDebugInfo_new |}
       else private_data_p |}.

(** [private_data->debug_info->f(...)]: both pointers are dereferenced. *)
Definition on_debug_info (f : M AllocatorDebugInfo unit) : M state unit :=
  λ '(a, g),
    match private_data a with
    | Some pd =>
        match debug_info pd with
        | Some d =>
            let '(r, d') := f d in
            (r, (set_private_data a (Some {| debug_info := Some d' |}), g))
        | None => (Undefined, (a, g))
        end
    | None => (Undefined, (a, g))
    end.

(** [allocate_function(private_data.get(), size)] *)
Definition call_allocate (size : Z) : M state Z :=
  λ '(a, g),
    let '(p, b') := allocate_function a (backend g) size in
    (Val p, (a, {| backend := b'; vmm := vmm g; heap := heap g;
                   calls := allocate_call size :: calls g |})).

(** [free_function(private_data.get(), pointer, size)] *)
Definition call_free (pointer size : Z) : M state unit :=
  λ '(a, g),
    (Val tt, (a, {| backend := free_function a (backend g) pointer size;
                    vmm := vmm g; heap := heap g;
                    calls := free_call pointer size :: calls g |})).

(** [reallocate_function(private_data.get(), pointer, old_size, size)] *)
Definition call_reallocate (pointer old_size size : Z) : M state Z :=
  λ '(a, g),
    let '(p, b') := reallocate_function a (backend g) pointer old_size size in
    (Val p, (a, {| backend := b'; vmm := vmm g; heap := heap g;
                   calls := reallocate_call pointer old_size size :: calls g |})).

(** [vmm.lemon_malloc(size)].  Modelled from the spec: the pool returns a
    region of at least [size] bytes, or null when it has none (lemon.h is
    not among the sources).  The pool picks the address; the caller may use
    the [size] bytes it asked for, which start indeterminate. *)
Definition vmm_lemon_malloc (size : Z) : M state Z :=
  λ '(a, g),
    let '(p, v') := lemon_malloc (vmm g) size in
    (Val p, (a, {| backend := backend g; vmm := v';
                   heap := if decide (p = nullptr) then heap g
                           else <[p := replicate (Z.to_nat size) Undef]> (heap g);
                   calls := lemon_malloc_call size :: calls g |})).

(** [vmm.lemon_free(pointer)]: the region is no longer live. *)
Definition vmm_lemon_free (pointer : Z) : M state unit :=
  λ '(a, g),
    (Val tt, (a, {| backend := backend g; vmm := lemon_free (vmm g) pointer;
                    heap := delete pointer (heap g);
                    calls := lemon_free_call pointer :: calls g |})).

(** [memcpy(dst, src, n)] on the memory of the pool. *)
Definition do_memcpy (dst src n : Z) : M state unit :=
  λ '(a, g),
    match memcpy dst src n (heap g) with
    | Some h' => (Val tt, (a, {| backend := backend g; vmm := vmm g; heap := h';
                                 calls := calls g |}))
    | None => (Undefined, (a, g))
    end.

(** [D_ASSERT(private_data)] *)
Definition has_private_data : M state bool :=
  λ '(a, g), (Val (bool_decide (is_Some (private_data a))), (a, g)).

(** Lines 127-154. *)
Definition AllocateData (size : Z) : M state Z :=
  D_ASSERT bld (0 <? size);;
  if MAXIMUM_ALLOC_SIZE <=? size then
    D_ASSERT bld false;;
    throw (InternalException (AllocationOutOfRange size MAXIMUM_ALLOC_SIZE))
  else if LEMON_MALLOC bld then
    result ← vmm_lemon_malloc size;
    mret result
  else
    result ← call_allocate size;
    when (DEBUG bld)
      (ok ← has_private_data;
       D_ASSERT bld ok;;
       on_debug_info (DebugInfo_AllocateData result size));;
    if decide (result = nullptr) then throw bad_alloc else mret result.

(** Lines 156-173. *)
Definition FreeData (pointer size : Z) : M state unit :=
  if decide (pointer = nullptr) then mret tt
  else
    D_ASSERT bld (0 <? size);;
    when (DEBUG bld)
      (ok ← has_private_data;
       D_ASSERT bld ok;;
       on_debug_info (DebugInfo_FreeData pointer size));;
    if LEMON_MALLOC bld then vmm_lemon_free pointer
    else call_free pointer size.

(** Lines 175-210. *)
Definition ReallocateData (pointer old_size size : Z) : M state Z :=
  if decide (pointer = nullptr) then mret nullptr
  else if MAXIMUM_ALLOC_SIZE <=? size then
    D_ASSERT bld false;;
    throw (InternalException (ReallocationOutOfRange size MAXIMUM_ALLOC_SIZE))
  else if LEMON_MALLOC bld then
    new_addr ← vmm_lemon_malloc size;
    do_memcpy new_addr pointer old_size;;
    vmm_lemon_free pointer;;
    mret new_addr
  else
    new_pointer ← call_reallocate pointer old_size size;
    when (DEBUG bld)
      (ok ← has_private_data;
       D_ASSERT bld ok;;
       on_debug_info (DebugInfo_ReallocateData pointer new_pointer old_size size));;
    if decide (new_pointer = nullptr) then throw bad_alloc else mret new_pointer.

(** *** AllocatedData (lines 30-64) *)

(** [allocator] is an [Allocator *]: the address of an allocator object, or
    [None] for [nullptr]. *)
Record AllocatedData : Type := {
  allocator : option Z;
  pointer : Z;
  allocated_size : Z
}.

(** The allocator objects by address, and what lies outside them. *)
Record world : Type := {
  allocators : gmap Z Allocator;
  outside : globals
}.

(** Lines 30-31. *)
Definition AllocatedData_default : AllocatedData :=
  {| allocator := None; pointer := nullptr; allocated_size := 0 |}.

(** Lines 33-38; [allocator_p] is the address of the referenced allocator. *)
Definition AllocatedData_new (allocator_p pointer_p allocated_size_p : Z)
  : result AllocatedData :=
  if decide (pointer_p = nullptr)
  then Throw (InternalException ConstructedWithNullptr)
  else Val {| allocator := Some allocator_p; pointer := pointer_p;
              allocated_size := allocated_size_p |}.

Definition swap_allocator (x y : AllocatedData) : AllocatedData * AllocatedData :=
  ({| allocator := allocator y; pointer := pointer x; allocated_size := allocated_size x |},
   {| allocator := allocator x; pointer := pointer y; allocated_size := allocated_size y |}).

Definition swap_pointer (x y : AllocatedData) : AllocatedData * AllocatedData :=
  ({| allocator := allocator x; pointer := pointer y; allocated_size := allocated_size x |},
   {| allocator := allocator y; pointer := pointer x; allocated_size := allocated_size y |}).

Definition swap_allocated_size (x y : AllocatedData) : AllocatedData * AllocatedData :=
  ({| allocator := allocator x; pointer := pointer x; allocated_size := allocated_size y |},
   {| allocator := allocator y; pointer := pointer y; allocated_size := allocated_size x |}).

(** Lines 43-47: the new object, and [other] after the move. *)
Definition AllocatedData_move (other : AllocatedData) : AllocatedData * AllocatedData :=
  let this := {| allocator := allocator other; pointer := nullptr; allocated_size := 0 |} in
  let '(this, other) := swap_pointer this other in
  swap_allocated_size this other.

(** Lines 49-54: [this] and [other] after the assignment. *)
Definition AllocatedData_assign (this other : AllocatedData)
  : AllocatedData * AllocatedData :=
  let '(this, other) := swap_allocator this other in
  let '(this, other) := swap_pointer this other in
  swap_allocated_size this other.

(** [allocator->f(...)]: the pointer is dereferenced, and the call runs on
    the allocator object found there. *)
Definition on_allocator {A} (p : option Z) (f : M state A) : M world A :=
  λ w,
    match p with
    | Some addr =>
        match allocators w !! addr with
        | Some a =>
            let '(r, (a', g')) := f (a, outside w) in
            (r, {| allocators := <[addr := a']> (allocators w); outside := g' |})
        | None => (Undefined, w)
        end
    | None => (Undefined, w)
    end.

(** Lines 56-64: the buffer after the call. *)
Definition Reset (this : AllocatedData) : M world AllocatedData :=
  if decide (pointer this = nullptr) then mret this
  else
    D_ASSERT bld (bool_decide (is_Some (allocator this)));;
    on_allocator (allocator this) (FreeData (pointer this) (allocated_size this));;
    mret {| allocator := allocator this; pointer := nullptr; allocated_size := 0 |}.

(** Lines 39-41. *)
Definition AllocatedData_destroy (this : AllocatedData) : M world unit :=
  Reset this;; mret tt.

(** The number of calls so far that released a region. *)
Definition releases (g : globals) : nat := length (filter is_release (calls g)).

(** A buffer that holds a pointer has an allocator to return it to, and a
    buffer that holds none has size zero. *)
Definition consistent (b : AllocatedData) : Prop :=
  (pointer b ≠ nullptr → is_Some (allocator b)) ∧
  (pointer b = nullptr → allocated_size b = 0).

(** The calls that went through the function table. *)
Definition is_table_call (c : backend_call) : bool :=
  match c with
  | allocate_call _ | free_call _ _ | reallocate_call _ _ _ => true
  | _ => false
  end.

Definition table_calls (g : globals) : list backend_call :=
  filter is_table_call (calls g).

End Allocator.

(** ** The draft variant (src/common/allocator.cpp)

    The second file is an earlier draft of the same component: it logs to
    the console, throws nowhere, has no debug info, reallocates without the
    old size, and its buffer holds the allocator by reference.  The
    functions the properties below speak about are embedded here. *)

Module Draft.
Section Draft.

Context {P : Platform}.

Inductive backend_call : Type :=
| allocate_call (size : Z)
| free_call (pointer size : Z)
| reallocate_call (pointer size : Z).

Record Allocator : Type := {
  allocate_function : backend_t → Z → Z * backend_t;
  free_function : backend_t → Z → Z → backend_t;
  reallocate_function : backend_t → Z → Z → Z * backend_t
}.

Record globals : Type := {
  backend : backend_t;
  calls : list backend_call
}.

Definition state : Type := Allocator * globals.

(** Lines 38-43. *)
Definition AllocateData (size : Z) : M state Z :=
  λ '(a, g),
    let '(p, b') := allocate_function a (backend g) size in
    (Val p, (a, {| backend := b'; calls := allocate_call size :: calls g |})).

(** Lines 45-50. *)
Definition FreeData (pointer size : Z) : M state unit :=
  if decide (pointer = nullptr) then mret tt
  else
    λ '(a, g),
      (Val tt, (a, {| backend := free_function a (backend g) pointer size;
                      calls := free_call pointer size :: calls g |})).

(** Lines 52-57. *)
Definition ReallocateData (pointer size : Z) : M state Z :=
  if decide (pointer = nullptr) then mret pointer
  else
    λ '(a, g),
      let '(p, b') := reallocate_function a (backend g) pointer size in
      (Val p, (a, {| backend := b'; calls := reallocate_call pointer size :: calls g |})).

(** [allocator] is an [Allocator &]: the address of an allocator object. *)
Record AllocatedData : Type := {
  allocator : Z;
  pointer : Z;
  allocated_size : Z
}.

Record world : Type := {
  allocators : gmap Z Allocator;
  outside : globals
}.

(** Lines 8-11. *)
Definition AllocatedData_new (allocator_p pointer_p allocated_size_p : Z) : AllocatedData :=
  {| allocator := allocator_p; pointer := pointer_p; allocated_size := allocated_size_p |}.

Definition on_allocator {A} (addr : Z) (f : M state A) : M world A :=
  λ w,
    match allocators w !! addr with
    | Some a =>
        let '(r, (a', g')) := f (a, outside w) in
        (r, {| allocators := <[addr := a']> (allocators w); outside := g' |})
    | None => (Undefined, w)
    end.

(** Lines 17-23: the buffer after the call. *)
Definition Reset (this : AllocatedData) : M world AllocatedData :=
  if decide (pointer this = nullptr) then mret this
  else
    on_allocator (allocator this) (FreeData (pointer this) (allocated_size this));;
    mret {| allocator := allocator this; pointer := nullptr;
            allocated_size := allocated_size this |}.

Definition is_release (c : backend_call) : bool :=
  match c with free_call _ _ => true | _ => false end.

Definition releases (g : globals) : nat := length (filter is_release (calls g)).

End Draft.
End Draft.

(** ** A platform to run the model on

    A pool and a function table that hand out consecutive addresses from
    4096 up to a limit and return null beyond it, never reusing an address;
    a limit of 0 is a backend that has no memory left. *)

Definition bump (limit next size : Z) : Z * Z :=
  if next + size <=? limit then (next, next + Z.max size 1) else (nullptr, next).

Definition test_settings (b : build) : Settings :=
  {| bld := b; GetStackTrace := "main" |}.

Definition test_platform (limit : Z) : Platform :=
  {| settings := test_settings as_written;
     builds := eq_refl;
     MAXIMUM_ALLOC_SIZE := 2 ^ 48;
     backend_t := Z;
     vmm_t := Z;
     lemon_malloc := bump limit;
     lemon_free := λ v _, v |}.

Definition test_allocator (limit : Z) : @Allocator (test_platform limit) :=
  Allocator_new (P := test_platform limit)
    (bump limit) (λ next _ _, next) (λ next _ _ size, bump limit next size) None.

Definition test_globals (limit : Z) : @globals (test_platform limit) :=
  @Build_globals (test_platform limit) 4096 4096 ∅ [].

Definition test_state (limit : Z) : @state (test_platform limit) :=
  (test_allocator limit, test_globals limit).

(** One allocator object, at address 1. *)
Definition test_world (limit : Z) : @world (test_platform limit) :=
  @Build_world (test_platform limit)
    {[ 1 := test_allocator limit ]} (test_globals limit).

(** A pool that holds a region of 100 bytes at 4096, filled with 0, 1, ...,
    99, and hands out addresses from 8192 on. *)
Definition pattern (n : nat) : list memval := (λ i, Byte (Z.of_nat i)) <$> seq 0 n.

Definition pattern_state : @state (test_platform (2 ^ 20)) :=
  (test_allocator (2 ^ 20),
   @Build_globals (test_platform (2 ^ 20))
     4096 8192 {[ 4096 := pattern 100 ]} []).

(** Two buffers of the allocator at address 1. *)
Definition first_buffer : AllocatedData :=
  {| allocator := Some 1; pointer := 4096; allocated_size := 8 |}.

Definition second_buffer : AllocatedData :=
  {| allocator := Some 1; pointer := 8192; allocated_size := 16 |}.

(** The methods of the debug info as a debug build with the extended
    registry has them, and a debug info that tracks one region of 1024 bytes
    at 4096. *)
Definition extended_debug : build :=
  {| DEBUG := true; DUCKDB_DEBUG_ALLOCATION := true |}.

Definition one_region : AllocatorDebugInfo :=
  {| allocation_count := 1024; pointers := {[ 4096 := (1024, "main") ]} |}.

(** The draft variant: one allocator object, at address 1. *)
Definition draft_world : @Draft.world (test_platform (2 ^ 20)) :=
  @Draft.Build_world (test_platform (2 ^ 20))
    {[ 1 := @Draft.Build_Allocator (test_platform (2 ^ 20))
              (bump (2 ^ 20)) (λ next _ _, next) (λ next _ size, bump (2 ^ 20) next size) ]}
    (@Draft.Build_globals (test_platform (2 ^ 20)) 4096 []).

(** ** Properties *)

(** *** Assertions *)

Lemma D_ASSERT_release {S} (b : build) (c : bool) (s : S) :
  DEBUG b = false → D_ASSERT b c s = (Val tt, s).
Proof. intros Hd. unfold D_ASSERT. by rewrite Hd. Qed.

Lemma D_ASSERT_true {S} (b : build) (s : S) : D_ASSERT b true s = (Val tt, s).
Proof. unfold D_ASSERT. by rewrite andb_false_r. Qed.

Lemma D_ASSERT_debug {S} (b : build) (c : bool) (s : S) :
  DEBUG b = true →
  D_ASSERT b c s = (if c then Val tt else AssertionFailed, s).
Proof. intros Hd. unfold D_ASSERT. rewrite Hd. by destruct c. Qed.

(** *** The builds that exist *)

Lemma AllocateData_scope (b : build) :
  well_scoped [] (preprocess b AllocateData_locals) = negb (DEBUG b).
Proof. simpl. by destruct (DEBUG b). Qed.

Lemma ReallocateData_scope (b : build) :
  well_scoped [] (preprocess b ReallocateData_locals) = negb (DEBUG b).
Proof. simpl. by destruct (DEBUG b). Qed.

(** The builds that compile are the builds without [DEBUG]. *)
Lemma compiles_iff_production (b : build) : compiles b = negb (DEBUG b).
Proof.
  unfold compiles. rewrite AllocateData_scope, ReallocateData_scope.
  by destruct (DEBUG b).
Qed.


Section Properties.

Context {P : Platform}.

(** The file is built without [DEBUG]. *)
Lemma production_build : DEBUG bld = false.
Proof.
  pose proof builds as Hbuilds.
  rewrite compiles_iff_production in Hbuilds.
  by destruct (DEBUG bld).
Qed.

(** *** The null pointer *)

(** C5: [ReallocateData(nullptr, old_size, size)] returns [nullptr] and
    leaves the whole state as it was: the allocator, both backends, the
    memory and the record of backend calls.  This holds in every build and
    for every pair of sizes.  The draft variant, which takes the new size
    only, does the same. *)
Theorem ReallocateData_nullptr (old_size size : Z) (st : state) (draft : Draft.state) :
  ReallocateData nullptr old_size size st = (Val nullptr, st) ∧
  Draft.ReallocateData nullptr size draft = (Val nullptr, draft).
Proof.
  split.
  - unfold ReallocateData. by rewrite decide_True.
  - unfold Draft.ReallocateData. by rewrite decide_True.
Qed.

(** C6: [FreeData(nullptr, size)] is a no-op for every size: the state after
    the call is the state before it, so no backend call was recorded and the
    outstanding-byte counter and the pointer registry are untouched.  The
    draft variant does the same. *)
Theorem FreeData_nullptr (size : Z) (st : state) (draft : Draft.state) :
  FreeData nullptr size st = (Val tt, st) ∧
  Draft.FreeData nullptr size draft = (Val tt, draft).
Proof.
  split.
  - unfold FreeData. by rewrite decide_True.
  - unfold Draft.FreeData. by rewrite decide_True.
Qed.

(** What [ReallocateData] does with a size at or above the ceiling when the
    pointer is not null. *)
Lemma ReallocateData_ceiling (pointer old_size size : Z) (st : state) :
  pointer ≠ nullptr →
  MAXIMUM_ALLOC_SIZE ≤ size →
  ReallocateData pointer old_size size st =
    (if DEBUG bld then AssertionFailed
     else Throw (InternalException (ReallocationOutOfRange size MAXIMUM_ALLOC_SIZE)),
     st).
Proof.
  intros Hp Hsize. unfold ReallocateData.
  rewrite decide_False by done.
  apply Z.leb_le in Hsize. rewrite Hsize.
  unfold mbind, M_bind, D_ASSERT. by destruct (DEBUG bld).
Qed.

(** C10: in [ReallocateData] the null check comes before the size ceiling.
    With a null pointer the call returns [nullptr] and reports no error for
    every new size, also one at or above [MAXIMUM_ALLOC_SIZE], although the
    same size makes the call fail for every pointer that is not null. *)
Theorem ReallocateData_nullptr_before_ceiling (old_size size : Z) (st : state) :
  fst (ReallocateData nullptr old_size size st) = Val nullptr ∧
  error_of (fst (ReallocateData nullptr old_size size st)) = None ∧
  (MAXIMUM_ALLOC_SIZE ≤ size →
   ∀ pointer, pointer ≠ nullptr →
     error_of (fst (ReallocateData pointer old_size size st)) =
       Some (if DEBUG bld then InternalConsistency else SizeLimitExceeded)).
Proof.
  split_and!.
  - unfold ReallocateData. by rewrite decide_True.
  - unfold ReallocateData. by rewrite decide_True.
  - intros Hsize pointer Hp. rewrite ReallocateData_ceiling by done.
    by destruct (DEBUG bld).
Qed.

(** *** The size guard of [AllocateData] *)


(** *** A null from the backend *)

(** C3: with [LEMON_MALLOC] defined, as line 25 has it, the result of
    [lemon_malloc] is never compared with null.  When the pool returns null,
    [AllocateData] hands that null to the caller, with no [OutOfMemory]; and
    [ReallocateData] passes the null to [memcpy] as the destination, which
    is undefined behaviour and no [OutOfMemory] either. *)
Theorem lemon_null_is_not_reported (size : Z) (a : Allocator) (g : globals) (v' : vmm_t) :
  LEMON_MALLOC bld = true →
  size < MAXIMUM_ALLOC_SIZE →
  lemon_malloc (vmm g) size = (nullptr, v') →
  heap g !! nullptr = None →
  fst (AllocateData size (a, g)) = Val nullptr ∧
  ∀ pointer old_size, pointer ≠ nullptr →
    fst (ReallocateData pointer old_size size (a, g)) = Undefined.
Proof.
  intros Hl Hsize Hv Hnull.
  pose proof production_build as Hd.
  apply Z.leb_gt in Hsize. split.
  - unfold AllocateData. rewrite Hsize, Hl.
    unfold mbind, M_bind. rewrite D_ASSERT_release by done.
    simpl. by rewrite Hv.
  - intros pointer old_size Hp. unfold ReallocateData.
    rewrite decide_False by done. rewrite Hsize, Hl.
    unfold mbind, M_bind. simpl. rewrite Hv. simpl.
    unfold memcpy. destruct (heap g !! pointer); simpl; [|done].
    by rewrite Hnull.
Qed.

(** *** The copy in [ReallocateData] *)

(** Growing: the region returned holds the old content in its first
    [old_size] bytes. *)
Lemma ReallocateData_lemon_grow (pointer old_size size new_addr : Z)
    (a : Allocator) (g : globals) (v' : vmm_t) (data : list memval) :
  LEMON_MALLOC bld = true →
  pointer ≠ nullptr →
  size < MAXIMUM_ALLOC_SIZE →
  heap g !! pointer = Some data →
  Z.of_nat (length data) = old_size →
  old_size ≤ size →
  lemon_malloc (vmm g) size = (new_addr, v') →
  new_addr ≠ nullptr → new_addr ≠ pointer →
  ∃ st' region,
    ReallocateData pointer old_size size (a, g) = (Val new_addr, st') ∧
    heap (snd st') !! new_addr = Some region ∧
    Z.of_nat (length region) = size ∧
    take (Z.to_nat old_size) region = data.
Proof.
  intros Hl Hp Hsize Hdata Hlen Hgrow Hv Hnew Hfresh.
  apply Z.leb_gt in Hsize.
  unfold ReallocateData. rewrite decide_False by done. rewrite Hsize, Hl.
  unfold mbind, M_bind. simpl. rewrite Hv. simpl.
  rewrite decide_False by done.
  unfold memcpy. rewrite (lookup_insert_ne _ new_addr pointer) by done.
  rewrite Hdata. simpl.
  rewrite lookup_insert_eq. simpl.
  rewrite length_replicate.
  rewrite decide_True by lia.
  simpl. eexists _, _. split; [reflexivity|]. simpl.
  rewrite lookup_delete_ne by done. rewrite lookup_insert_eq.
  split; [reflexivity|].
  assert (Z.to_nat old_size = length data) as -> by lia.
  rewrite firstn_all. split.
  - rewrite length_app, length_drop, length_replicate. lia.
  - by rewrite take_app_length.
Qed.

(** C2: shrinking.  With [LEMON_MALLOC] defined, line 204 copies [old_size]
    bytes into the region that line 203 obtained for [size] bytes.  When
    [size] is less than [old_size] the copy runs past the end of the new
    region, whatever address the pool picked for it: the call is undefined
    behaviour and returns no region at all. *)
Theorem ReallocateData_lemon_shrink_overruns (pointer old_size size new_addr : Z)
    (a : Allocator) (g : globals) (v' : vmm_t) :
  LEMON_MALLOC bld = true →
  pointer ≠ nullptr →
  0 ≤ size < MAXIMUM_ALLOC_SIZE →
  size < old_size →
  lemon_malloc (vmm g) size = (new_addr, v') →
  new_addr ≠ nullptr →
  fst (ReallocateData pointer old_size size (a, g)) = Undefined.
Proof.
  intros Hl Hp [Hpos Hsize] Hshrink Hv Hnew.
  apply Z.leb_gt in Hsize.
  unfold ReallocateData. rewrite decide_False by done. rewrite Hsize, Hl.
  unfold mbind, M_bind. simpl. rewrite Hv. simpl.
  rewrite decide_False by done.
  unfold memcpy.
  destruct (_ !! pointer) as [s|]; simpl; [|done].
  rewrite lookup_insert_eq. simpl.
  rewrite length_replicate.
  by rewrite decide_False by lia.
Qed.

(** *** Owned buffers *)

(** C7: the constructor that takes an allocator, a pointer and a size throws
    the "constructed with nullptr" exception, of kind [InvalidArgument],
    when the pointer is null, whatever the allocator and the size; and a
    buffer it does return never holds a null pointer. *)
Theorem AllocatedData_new_nullptr (allocator_p allocated_size_p : Z) :
  AllocatedData_new allocator_p nullptr allocated_size_p =
    Throw (InternalException ConstructedWithNullptr) ∧
  error_of (AllocatedData_new allocator_p nullptr allocated_size_p) =
    Some InvalidArgument ∧
  ∀ pointer_p buffer,
    AllocatedData_new allocator_p pointer_p allocated_size_p = Val buffer →
    pointer buffer ≠ nullptr.
Proof.
  split_and!; [done..|].
  intros pointer_p buffer. unfold AllocatedData_new.
  case_decide; [done|]. by intros [= <-].
Qed.

Lemma Reset_released (this : AllocatedData) (w : world) :
  pointer this = nullptr → Reset this w = (Val this, w).
Proof. intros Hp. unfold Reset. by rewrite decide_True. Qed.

Lemma AllocatedData_destroy_released (this : AllocatedData) (w : world) :
  pointer this = nullptr → AllocatedData_destroy this w = (Val tt, w).
Proof.
  intros Hp. unfold AllocatedData_destroy, mbind, M_bind.
  by rewrite Reset_released.
Qed.

(** C4: move construction gives the new buffer the allocator, the pointer
    and the size of the source and leaves the source released (null, 0), so
    destroying the source afterwards changes nothing.  Move assignment
    exchanges the three fields: the destination gets what the source held,
    and the source gets what the destination held before.  The source is
    therefore released after the assignment, and its destruction without
    effect, when the destination was released before it. *)
Theorem move_transfers_ownership (this other : AllocatedData) (w : world) :
  (let '(new, other') := AllocatedData_move other in
   allocator new = allocator other ∧
   pointer new = pointer other ∧
   allocated_size new = allocated_size other ∧
   pointer other' = nullptr ∧
   allocated_size other' = 0 ∧
   AllocatedData_destroy other' w = (Val tt, w)) ∧
  (let '(this', other') := AllocatedData_assign this other in
   this' = other ∧
   other' = this ∧
   (pointer this = nullptr → AllocatedData_destroy other' w = (Val tt, w))).
Proof.
  destruct this as [a1 p1 s1], other as [a2 p2 s2]. simpl. split.
  - split_and!; [done..|]. by apply AllocatedData_destroy_released.
  - split_and!; [done..|]. intros ->. by apply AllocatedData_destroy_released.
Qed.

(** [Reset] on a buffer that holds a region: the buffer and the world after
    the call. *)
Lemma Reset_run (this : AllocatedData) (w : world) (addr : Z) (a : Allocator) :
  pointer this ≠ nullptr →
  allocator this = Some addr →
  allocators w !! addr = Some a →
  Reset this w =
    (Val {| allocator := allocator this; pointer := nullptr; allocated_size := 0 |},
     {| allocators := allocators w;
        outside :=
          {| backend := backend (outside w);
             vmm := lemon_free (vmm (outside w)) (pointer this);
             heap := delete (pointer this) (heap (outside w));
             calls := lemon_free_call (pointer this) :: calls (outside w) |} |}).
Proof.
  intros Hp Haddr Ha.
  pose proof production_build as Hd.
  unfold Reset. rewrite decide_False by done.
  unfold mbind, M_bind, on_allocator.
  rewrite D_ASSERT_release by done. rewrite Haddr, Ha.
  unfold FreeData. rewrite decide_False by done. rewrite Hd.
  unfold mbind, M_bind, when. rewrite D_ASSERT_release by done. simpl.
  by rewrite insert_id.
Qed.

Lemma Draft_Reset_run (this : Draft.AllocatedData) (w : Draft.world) (a : Draft.Allocator) :
  Draft.pointer this ≠ nullptr →
  Draft.allocators w !! Draft.allocator this = Some a →
  Draft.Reset this w =
    (Val {| Draft.allocator := Draft.allocator this; Draft.pointer := nullptr;
            Draft.allocated_size := Draft.allocated_size this |},
     {| Draft.allocators := Draft.allocators w;
        Draft.outside :=
          {| Draft.backend :=
               Draft.free_function a (Draft.backend (Draft.outside w))
                 (Draft.pointer this) (Draft.allocated_size this);
             Draft.calls :=
               Draft.free_call (Draft.pointer this) (Draft.allocated_size this)
                 :: Draft.calls (Draft.outside w) |} |}).
Proof.
  intros Hp Ha.
  unfold Draft.Reset. rewrite decide_False by done.
  unfold mbind, M_bind, Draft.on_allocator, Draft.FreeData.
  rewrite Ha. rewrite decide_False by done. simpl.
  by rewrite insert_id.
Qed.

(** C9: [Reset] on a buffer that holds a region hands that region back, once:
    the only backend call it makes is [lemon_free] of the stored pointer,
    after which the region is no longer in the pool's memory, and the
    buffer is left released (pointer null, size 0).  A further [Reset] of
    the released buffer, in whatever state, returns at once and changes
    nothing, so no second call is made.  In the draft variant the one call
    is [free_function] with the stored pointer and the stored size. *)
Theorem Reset_idempotent :
  (∀ (this : AllocatedData) (w : world) (addr : Z) (a : Allocator),
     pointer this ≠ nullptr →
     allocator this = Some addr →
     allocators w !! addr = Some a →
     ∃ released w1,
       Reset this w = (Val released, w1) ∧
       pointer released = nullptr ∧
       allocated_size released = 0 ∧
       allocators w1 = allocators w ∧
       backend (outside w1) = backend (outside w) ∧
       vmm (outside w1) = lemon_free (vmm (outside w)) (pointer this) ∧
       heap (outside w1) = delete (pointer this) (heap (outside w)) ∧
       calls (outside w1) = lemon_free_call (pointer this) :: calls (outside w) ∧
       releases (outside w1) = S (releases (outside w)) ∧
       ∀ w', Reset released w' = (Val released, w')) ∧
  (∀ (this : Draft.AllocatedData) (w : Draft.world) (a : Draft.Allocator),
     Draft.pointer this ≠ nullptr →
     Draft.allocators w !! Draft.allocator this = Some a →
     ∃ released w1,
       Draft.Reset this w = (Val released, w1) ∧
       Draft.pointer released = nullptr ∧
       Draft.allocators w1 = Draft.allocators w ∧
       Draft.backend (Draft.outside w1) =
         Draft.free_function a (Draft.backend (Draft.outside w))
           (Draft.pointer this) (Draft.allocated_size this) ∧
       Draft.calls (Draft.outside w1) =
         Draft.free_call (Draft.pointer this) (Draft.allocated_size this)
           :: Draft.calls (Draft.outside w) ∧
       Draft.releases (Draft.outside w1) = S (Draft.releases (Draft.outside w)) ∧
       ∀ w', Draft.Reset released w' = (Val released, w')).
Proof.
  split.
  - intros this w addr a Hp Haddr Ha.
    eexists _, _. split; [by apply (Reset_run this w addr a)|].
    by split_and!.
  - intros this w a Hp Ha.
    eexists _, _. split; [by apply (Draft_Reset_run this w a)|].
    by split_and!.
Qed.

End Properties.

(** ** The properties at work on the test platform *)



(** Shrinking the 100-byte region of [pattern_state] to 50 bytes. *)
Lemma ReallocateData_lemon_shrink_overruns_witness :
  fst (ReallocateData 4096 100 50 pattern_state) = Undefined.
Proof.
  apply (ReallocateData_lemon_shrink_overruns (P := test_platform (2 ^ 20))
           4096 100 50 8192 (fst pattern_state) (snd pattern_state) 8242).
  - reflexivity.
  - discriminate.
  - split; [discriminate | reflexivity].
  - reflexivity.
  - reflexivity.
  - discriminate.
Defined.

(** Growing the same region to 200 bytes keeps the pattern. *)
Example ReallocateData_lemon_grow_pattern :
  ∃ st' region,
    ReallocateData 4096 100 200 pattern_state = (Val 8192, st') ∧
    heap (snd st') !! 8192 = Some region ∧
    take 100 region = pattern 100.
Proof.
  destruct (ReallocateData_lemon_grow (P := test_platform (2 ^ 20))
              4096 100 200 8192 (fst pattern_state) (snd pattern_state) 8392
              (pattern 100)) as (st' & region & Hrun & Hregion & _ & Htake);
    try reflexivity; try discriminate.
  exists st', region. by split_and!.
Qed.

(** A pool with no memory left, in the build as written. *)
Lemma lemon_null_is_not_reported_witness :
  fst (AllocateData 1024 (test_state 0)) = Val nullptr ∧
  ∀ pointer old_size, pointer ≠ nullptr →
    fst (ReallocateData pointer old_size 1024 (test_state 0)) = Undefined.
Proof.
  apply (lemon_null_is_not_reported (P := test_platform 0)
           1024 (test_allocator 0) (test_globals 0) 4096).
  - reflexivity.
  - reflexivity.
  - reflexivity.
  - reflexivity.
Defined.

(** Moving into a new buffer, and assigning to a released one. *)
Lemma move_transfers_ownership_witness :
  AllocatedData_destroy
    (snd (AllocatedData_assign AllocatedData_default second_buffer))
    (test_world (2 ^ 20)) =
  (Val tt, test_world (2 ^ 20)).
Proof.
  apply (proj2 (proj2 (proj2
    (move_transfers_ownership (P := test_platform (2 ^ 20))
       AllocatedData_default second_buffer (test_world (2 ^ 20)))))).
  reflexivity.
Defined.

(** Assigning to a buffer that holds a region: the source holds that region
    afterwards, and destroying the source releases it. *)
Lemma move_assign_source_not_released :
  pointer (snd (AllocatedData_assign first_buffer second_buffer)) = 4096 ∧
  allocated_size (snd (AllocatedData_assign first_buffer second_buffer)) = 8 ∧
  calls (outside (snd
    (AllocatedData_destroy (snd (AllocatedData_assign first_buffer second_buffer))
       (test_world (2 ^ 20))))) = [lemon_free_call 4096] ∧
  ¬ (pointer (snd (AllocatedData_assign first_buffer second_buffer)) = nullptr ∧
     allocated_size (snd (AllocatedData_assign first_buffer second_buffer)) = 0 ∧
     releases (outside (snd
       (AllocatedData_destroy (snd (AllocatedData_assign first_buffer second_buffer))
          (test_world (2 ^ 20))))) =
     releases (outside (test_world (2 ^ 20)))).
Proof.
  split_and!; [reflexivity..|].
  intros [Hp _]. vm_compute in Hp. discriminate Hp.
Defined.

(** A pointer that is not null yields a buffer that holds it. *)
Lemma AllocatedData_new_nullptr_witness :
  AllocatedData_new 1 4096 8 = Val first_buffer ∧ pointer first_buffer ≠ nullptr.
Proof.
  split; [reflexivity|].
  apply (proj2 (proj2 (AllocatedData_new_nullptr 1 8)) 4096 first_buffer).
  reflexivity.
Defined.

(** A new size at the ceiling: refused for the region at 4096, not seen
    for the null pointer. *)
Lemma ReallocateData_nullptr_before_ceiling_witness :
  fst (ReallocateData nullptr 100 (2 ^ 48) pattern_state) = Val nullptr ∧
  error_of (fst (ReallocateData 4096 100 (2 ^ 48) pattern_state)) =
    Some SizeLimitExceeded.
Proof.
  split.
  - apply (proj1 (ReallocateData_nullptr_before_ceiling
                    (P := test_platform (2 ^ 20))
                    100 (2 ^ 48) pattern_state)).
  - apply (proj2 (proj2 (ReallocateData_nullptr_before_ceiling
                           (P := test_platform (2 ^ 20))
                           100 (2 ^ 48) pattern_state))).
    + discriminate.
    + discriminate.
Defined.


(** The first buffer released. *)
Lemma Reset_idempotent_witness :
  ∃ released w1,
    Reset first_buffer (test_world (2 ^ 20)) = (Val released, w1) ∧
    pointer released = nullptr ∧
    allocated_size released = 0 ∧
    allocators w1 = allocators (test_world (2 ^ 20)) ∧
    backend (outside w1) = 4096 ∧
    vmm (outside w1) = 4096 ∧
    heap (outside w1) = delete 4096 ∅ ∧
    calls (outside w1) = [lemon_free_call 4096] ∧
    releases (outside w1) = 1%nat ∧
    ∀ w' : @world (test_platform (2 ^ 20)),
      Reset released w' = (Val released, w').
Proof.
  apply (proj1 (Reset_idempotent (P := test_platform (2 ^ 20)))
           first_buffer (test_world (2 ^ 20)) 1 (test_allocator (2 ^ 20))).
  - discriminate.
  - reflexivity.
  - reflexivity.
Defined.

(** ** Further properties *)

(** *** The debug info *)

Section DebugAccounting.

Context {S : Settings}.

Lemma DebugInfo_AllocateData_run (pointer size : Z) (d : AllocatorDebugInfo) :
  DebugInfo_AllocateData pointer size d = (Val tt, recorded d pointer size).
Proof.
  unfold DebugInfo_AllocateData, recorded, mbind, M_bind, when, modify.
  by destruct (DUCKDB_DEBUG_ALLOCATION bld).
Qed.

Lemma DebugInfo_FreeData_run (pointer size : Z) (d : AllocatorDebugInfo) :
  tracked d pointer size →
  DebugInfo_FreeData pointer size d = (Val tt, forgotten d pointer size).
Proof.
  intros [Hle Hreg].
  unfold DebugInfo_FreeData, forgotten, mbind, M_bind, when, modify, get.
  apply Z.leb_le in Hle. rewrite Hle, D_ASSERT_true.
  destruct (DUCKDB_DEBUG_ALLOCATION bld); [|done].
  destruct Hreg as [trace Hreg]; [done|]. simpl. rewrite Hreg. simpl.
  by rewrite Z.eqb_refl, !D_ASSERT_true.
Qed.

(** [DebugInfo_FreeData] on a pointer the debug info does not track. *)
Lemma DebugInfo_FreeData_fails (pointer size : Z) (d : AllocatorDebugInfo) :
  DEBUG bld = true →
  ¬ tracked d pointer size →
  fst (DebugInfo_FreeData pointer size d) = AssertionFailed.
Proof.
  intros Hd Hnot.
  unfold DebugInfo_FreeData, mbind, M_bind, when, modify, get.
  rewrite (D_ASSERT_debug _ _ _ Hd).
  destruct (size <=? allocation_count d) eqn:Hle; [|done].
  apply Z.leb_le in Hle.
  destruct (DUCKDB_DEBUG_ALLOCATION bld) eqn:Hext.
  - simpl. rewrite !(D_ASSERT_debug _ _ _ Hd).
    destruct (pointers d !! pointer) as [[size' trace]|] eqn:Hreg; simpl; [|done].
    destruct (size' =? size) eqn:Hsize; [|done].
    apply Z.eqb_eq in Hsize as ->.
    destruct Hnot. split; [done|]. eauto.
  - destruct Hnot. split; [done|congruence].
Qed.

Lemma registered_bytes_insert (m : gmap Z (Z * string)) (pointer size : Z) (trace : string) :
  m !! pointer = None →
  registered_bytes (<[pointer := (size, trace)]> m) = size + registered_bytes m.
Proof.
  intros Hfresh. unfold registered_bytes.
  rewrite map_fold_insert_L; [done| |done].
  intros. lia.
Qed.

Lemma registered_bytes_delete (m : gmap Z (Z * string)) (pointer size : Z) (trace : string) :
  m !! pointer = Some (size, trace) →
  registered_bytes m = size + registered_bytes (delete pointer m).
Proof.
  intros Hreg. unfold registered_bytes.
  rewrite (map_fold_delete_L _ _ pointer (size, trace) m); [done| |done].
  intros. lia.
Qed.

Lemma recorded_matches (d : AllocatorDebugInfo) (pointer size : Z) :
  DUCKDB_DEBUG_ALLOCATION bld = true →
  counter_matches_registry d →
  pointers d !! pointer = None →
  counter_matches_registry (recorded d pointer size).
Proof.
  intros Hext Hinv Hfresh. unfold counter_matches_registry, recorded in *. simpl.
  rewrite Hext, registered_bytes_insert by done.
  rewrite Hinv, Z.add_mod_idemp_l by done. f_equal. lia.
Qed.

Lemma forgotten_matches (d : AllocatorDebugInfo) (pointer size : Z) :
  DUCKDB_DEBUG_ALLOCATION bld = true →
  counter_matches_registry d →
  tracked d pointer size →
  counter_matches_registry (forgotten d pointer size).
Proof.
  intros Hext Hinv [_ Hreg]. destruct Hreg as [trace Hreg]; [done|].
  unfold counter_matches_registry, forgotten in *. simpl.
  rewrite Hext, Hinv, (registered_bytes_delete _ _ _ _ Hreg).
  rewrite Zminus_mod_idemp_l. f_equal. lia.
Qed.

(** X4: in the extended debug build the counter stays equal, modulo 2^64,
    to the sum of the sizes in the registry.  The relation holds for a new
    debug info, is kept by recording an allocation at a pointer that is not
    registered, by a free that passes its assertions, and by a reallocation
    whose old pointer is tracked and whose new pointer is not registered
    once the old one is erased. *)
Theorem counter_matches_registry_kept (d : AllocatorDebugInfo)
    (pointer new_pointer size new_size : Z) :
  DUCKDB_DEBUG_ALLOCATION bld = true →
  counter_matches_registry AllocatorDebugInfo_new ∧
  (counter_matches_registry d →
   (pointers d !! pointer = None →
    counter_matches_registry (snd (DebugInfo_AllocateData pointer size d))) ∧
   (tracked d pointer size →
    counter_matches_registry (snd (DebugInfo_FreeData pointer size d))) ∧
   (tracked d pointer size →
    delete pointer (pointers d) !! new_pointer = None →
    fst (DebugInfo_ReallocateData pointer new_pointer size new_size d) = Val tt ∧
    counter_matches_registry
      (snd (DebugInfo_ReallocateData pointer new_pointer size new_size d)))).
Proof.
  intros Hext. split; [done|]. intros Hinv. split_and!.
  - intros Hfresh. rewrite DebugInfo_AllocateData_run. by apply recorded_matches.
  - intros Htracked. rewrite DebugInfo_FreeData_run by done.
    by apply forgotten_matches.
  - intros Htracked Hfresh.
    unfold DebugInfo_ReallocateData, mbind, M_bind.
    rewrite DebugInfo_FreeData_run by done.
    rewrite DebugInfo_AllocateData_run. simpl. split; [done|].
    apply recorded_matches; [done|by apply forgotten_matches|].
    simpl. by rewrite Hext.
Qed.

(** X1: the debug info records a reallocation as a free of the old size
    followed by an allocation of the new one.  On an old pointer it tracks,
    [DebugInfo_ReallocateData] returns with the counter moved from [count]
    to [count - old_size + new_size] (modulo 2^64), and in the extended
    build with the old pointer erased from the registry and the new pointer
    registered with the new size. *)
Theorem DebugInfo_ReallocateData_accounting (d : AllocatorDebugInfo)
    (pointer new_pointer old_size new_size : Z) :
  tracked d pointer old_size →
  DebugInfo_ReallocateData pointer new_pointer old_size new_size d =
    (Val tt,
     {| allocation_count := (allocation_count d - old_size + new_size) mod idx_max;
        pointers :=
          if DUCKDB_DEBUG_ALLOCATION bld
          then <[new_pointer := (new_size, GetStackTrace)]> (delete pointer (pointers d))
          else pointers d |}).
Proof.
  intros Htracked.
  unfold DebugInfo_ReallocateData, mbind, M_bind.
  rewrite DebugInfo_FreeData_run by done.
  rewrite DebugInfo_AllocateData_run.
  unfold recorded, forgotten. simpl.
  rewrite Z.add_mod_idemp_l by done.
  by destruct (DUCKDB_DEBUG_ALLOCATION bld).
Qed.

(** X3: what [DebugInfo_FreeData] checks when assertions are on.  It returns
    when the counter covers the size and, in the extended build, the
    registry holds the pointer with that size.  When the counter is below
    the size the first assertion fails and the debug info is unchanged.
    When the counter covers the size but the registry of the extended build
    does not hold the pointer with that size, an assertion fails after the
    counter has already been lowered. *)
Theorem DebugInfo_FreeData_checks (d : AllocatorDebugInfo) (pointer size : Z) :
  DEBUG bld = true →
  (tracked d pointer size →
   DebugInfo_FreeData pointer size d = (Val tt, forgotten d pointer size)) ∧
  (allocation_count d < size →
   DebugInfo_FreeData pointer size d = (AssertionFailed, d)) ∧
  (size ≤ allocation_count d →
   DUCKDB_DEBUG_ALLOCATION bld = true →
   (∀ trace, pointers d !! pointer ≠ Some (size, trace)) →
   DebugInfo_FreeData pointer size d =
     (AssertionFailed,
      {| allocation_count := (allocation_count d - size) mod idx_max;
         pointers := pointers d |})).
Proof.
  intros Hd. split_and!.
  - intros Htracked. by apply DebugInfo_FreeData_run.
  - intros Hlt. apply Z.leb_gt in Hlt.
    unfold DebugInfo_FreeData, mbind, M_bind, get.
    by rewrite (D_ASSERT_debug _ _ _ Hd), Hlt.
  - intros Hle Hext Hreg. apply Z.leb_le in Hle.
    unfold DebugInfo_FreeData, mbind, M_bind, when, modify, get.
    rewrite Hext, !(D_ASSERT_debug _ _ _ Hd), Hle. simpl.
    destruct (pointers d !! pointer) as [[size' trace]|] eqn:Hlookup; simpl; [|done].
    destruct (size' =? size) eqn:Hsize; [|done].
    apply Z.eqb_eq in Hsize as ->. by destruct (Hreg trace).
Qed.

(** X17: the extended registry catches a double free.  Once
    [DebugInfo_FreeData] has erased a pointer it tracked, a second
    [DebugInfo_FreeData] of that pointer fails an assertion, with whatever
    size. *)
Theorem double_free_is_caught (d : AllocatorDebugInfo) (pointer size size' : Z) :
  DEBUG bld = true →
  DUCKDB_DEBUG_ALLOCATION bld = true →
  tracked d pointer size →
  ∃ d1,
    DebugInfo_FreeData pointer size d = (Val tt, d1) ∧
    pointers d1 !! pointer = None ∧
    fst (DebugInfo_FreeData pointer size' d1) = AssertionFailed.
Proof.
  intros Hd Hext Htracked.
  exists (forgotten d pointer size). split_and!.
  - by apply DebugInfo_FreeData_run.
  - simpl. rewrite Hext. by rewrite lookup_delete_eq.
  - apply DebugInfo_FreeData_fails; [done|].
    intros [_ Hreg]. destruct Hreg as [trace Hreg]; [done|].
    simpl in Hreg. rewrite Hext in Hreg. by rewrite lookup_delete_eq in Hreg.
Qed.

(** X18: an allocation and the free of the same pointer with the same size
    leave the debug info as it was, counter and registry, when the counter
    has room for the size and the pointer was not registered before.  When
    the counter has no room it wraps around, and the free then fails its
    first assertion. *)
Theorem DebugInfo_allocate_free (d : AllocatorDebugInfo) (pointer size : Z) :
  0 ≤ allocation_count d < idx_max →
  0 ≤ size < idx_max →
  (allocation_count d + size < idx_max →
   pointers d !! pointer = None →
   DebugInfo_FreeData pointer size (snd (DebugInfo_AllocateData pointer size d)) =
     (Val tt, d)) ∧
  (DEBUG bld = true →
   idx_max ≤ allocation_count d + size →
   fst (DebugInfo_FreeData pointer size (snd (DebugInfo_AllocateData pointer size d))) =
     AssertionFailed).
Proof.
  intros Hcount Hsize. rewrite DebugInfo_AllocateData_run. split.
  - intros Hroom Hfresh.
    assert ((allocation_count d + size) mod idx_max = allocation_count d + size)
      as Hmod1 by (apply Z.mod_small; lia).
    rewrite DebugInfo_FreeData_run.
    + f_equal. destruct d as [count registry]. unfold forgotten, recorded. simpl in *.
      rewrite Hmod1, Z.add_simpl_r, Z.mod_small by lia.
      f_equal. destruct (DUCKDB_DEBUG_ALLOCATION bld); [|done].
      by apply delete_insert_id.
    + split; simpl.
      * rewrite Hmod1. lia.
      * intros ->. eexists. by rewrite lookup_insert_eq.
  - intros Hd Hwrap.
    apply DebugInfo_FreeData_fails; [done|].
    intros [Hle _]. simpl in Hle.
    assert ((allocation_count d + size) mod idx_max = allocation_count d + size - idx_max)
      as Hmod.
    { symmetry. apply (Z.mod_unique_pos _ _ 1); lia. }
    lia.
Qed.

(** X5: the leak check of the debug info.  A new debug info passes the
    assertion of its destructor.  After one allocation is recorded the
    assertion fails, and in the extended build the report holds exactly
    that pointer with its size.  After the free of that pointer with the
    same size the debug info is new again and the assertion passes. *)
Theorem leak_check (pointer size : Z) :
  DEBUG bld = true →
  0 < size < idx_max →
  fst (AllocatorDebugInfo_destroy AllocatorDebugInfo_new) = Val tt ∧
  ∃ d1,
    DebugInfo_AllocateData pointer size AllocatorDebugInfo_new = (Val tt, d1) ∧
    fst (AllocatorDebugInfo_destroy d1) = AssertionFailed ∧
    leak_report d1 =
      (if DUCKDB_DEBUG_ALLOCATION bld
       then {[ pointer := (size, GetStackTrace) ]}
       else ∅) ∧
    DebugInfo_FreeData pointer size d1 = (Val tt, AllocatorDebugInfo_new) ∧
    leak_report AllocatorDebugInfo_new = ∅.
Proof.
  intros Hd Hsize.
  assert ((0 + size) mod idx_max = size) as Hmod by (apply Z.mod_small; lia).
  assert ((size =? 0) = false) as Hnz by (apply Z.eqb_neq; lia).
  split.
  { unfold AllocatorDebugInfo_destroy, mbind, M_bind, get.
    by rewrite (D_ASSERT_debug _ _ _ Hd). }
  exists (recorded AllocatorDebugInfo_new pointer size). split_and!.
  - apply DebugInfo_AllocateData_run.
  - unfold AllocatorDebugInfo_destroy, mbind, M_bind, get.
    rewrite (D_ASSERT_debug _ _ _ Hd). simpl. by rewrite Hmod, Hnz.
  - unfold leak_report, recorded. simpl. rewrite Hmod, Hnz.
    destruct (DUCKDB_DEBUG_ALLOCATION bld); [|done].
    simpl. by rewrite insert_empty.
  - rewrite DebugInfo_FreeData_run.
    + f_equal. unfold forgotten, recorded, AllocatorDebugInfo_new. simpl.
      rewrite Hmod, Z.sub_diag. f_equal.
      destruct (DUCKDB_DEBUG_ALLOCATION bld); [|done].
      by apply delete_insert_id.
    + split; simpl.
      * rewrite Hmod. lia.
      * intros ->. eexists. by rewrite lookup_insert_eq.
  - unfold leak_report. simpl. by rewrite andb_false_r.
Qed.

(** X15: an allocation, a reallocation of that pointer to another size and
    a free of the new pointer with the new size leave the debug info as it
    was, counter and registry, provided the counter has room for both sizes
    and neither pointer was registered before. *)
Theorem resized_lifetime_counter (d : AllocatorDebugInfo)
    (pointer new_pointer size new_size : Z) :
  0 ≤ allocation_count d →
  0 ≤ size → 0 ≤ new_size →
  allocation_count d + size < idx_max →
  allocation_count d + new_size < idx_max →
  pointers d !! pointer = None →
  pointers d !! new_pointer = None →
  ∃ d1 d2,
    DebugInfo_AllocateData pointer size d = (Val tt, d1) ∧
    DebugInfo_ReallocateData pointer new_pointer size new_size d1 = (Val tt, d2) ∧
    allocation_count d2 = allocation_count d + new_size ∧
    DebugInfo_FreeData new_pointer new_size d2 = (Val tt, d).
Proof.
  intros Hc0 Hs0 Hn0 Hroom1 Hroom2 Hfresh1 Hfresh2.
  assert ((allocation_count d + size) mod idx_max = allocation_count d + size)
    as Hmod1 by (apply Z.mod_small; lia).
  assert ((allocation_count d + size - size) mod idx_max = allocation_count d)
    as Hmod2 by (rewrite Z.add_simpl_r; apply Z.mod_small; lia).
  assert ((allocation_count d + new_size) mod idx_max = allocation_count d + new_size)
    as Hmod3 by (apply Z.mod_small; lia).
  assert ((allocation_count d + new_size - new_size) mod idx_max = allocation_count d)
    as Hmod4 by (rewrite Z.add_simpl_r; apply Z.mod_small; lia).
  assert (tracked (recorded d pointer size) pointer size) as Htracked1.
  { split; simpl.
    - rewrite Hmod1. lia.
    - intros ->. eexists. by rewrite lookup_insert_eq. }
  set (d2 := recorded (forgotten (recorded d pointer size) pointer size)
               new_pointer new_size).
  assert (tracked d2 new_pointer new_size) as Htracked2.
  { split; simpl.
    - rewrite Hmod1, Hmod2, Hmod3. lia.
    - intros ->. eexists. by rewrite lookup_insert_eq. }
  exists (recorded d pointer size), d2. split_and!.
  - apply DebugInfo_AllocateData_run.
  - unfold DebugInfo_ReallocateData, mbind, M_bind.
    rewrite DebugInfo_FreeData_run by done.
    by rewrite DebugInfo_AllocateData_run.
  - simpl. by rewrite Hmod1, Hmod2, Hmod3.
  - rewrite DebugInfo_FreeData_run by done. f_equal.
    destruct d as [count registry]. unfold d2, forgotten, recorded. simpl in *.
    rewrite Hmod1, Hmod2, Hmod3, Hmod4. f_equal.
    destruct (DUCKDB_DEBUG_ALLOCATION bld); [|done].
    rewrite delete_insert_eq, delete_insert_id by done.
    by apply delete_id.
Qed.

End DebugAccounting.

(** *** The three calls in the build as written *)

Section ProductionBuild.

Context {P : Platform}.

Ltac run_calls :=
  unfold AllocateData, FreeData, ReallocateData, mbind, M_bind, when, throw,
    call_allocate, call_free, call_reallocate, vmm_lemon_malloc, vmm_lemon_free,
    do_memcpy, has_private_data, on_debug_info, D_ASSERT, table_calls;
  repeat (simpl in *; first [done | case_decide | case_match]);
  simplify_eq/=; try done.

(** X6: a production build never touches the allocator object: whatever the
    arguments and whatever the outcome, the object after [AllocateData],
    [FreeData] and [ReallocateData] is the object before the call. *)
Theorem production_leaves_allocator (pointer_p old_size size : Z) (st : state) :
  DEBUG bld = false →
  fst (snd (AllocateData size st)) = fst st ∧
  fst (snd (FreeData pointer_p size st)) = fst st ∧
  fst (snd (ReallocateData pointer_p old_size size st)) = fst st.
Proof.
  intros Hd. destruct st as [a g]. split_and!.
  - unfold AllocateData, mbind, M_bind, when, D_ASSERT.
    destruct (DEBUG bld); [done|]. run_calls.
  - unfold FreeData, mbind, M_bind, when, D_ASSERT.
    destruct (DEBUG bld); [done|]. run_calls.
  - unfold ReallocateData, mbind, M_bind, when, D_ASSERT.
    destruct (DEBUG bld); [done|]. run_calls.
Qed.


(** X8: growing a region with the pool.  The call returns the new region,
    which holds the old content followed by indeterminate bytes up to the
    new size; the old region is no longer live; every other region is as it
    was; and the pool was asked for the new region before the old one was
    given back. *)
Theorem ReallocateData_lemon_grow_result (pointer_p old_size size new_addr : Z)
    (a : Allocator) (g : globals) (v' : vmm_t) (data : list memval) :
  LEMON_MALLOC bld = true →
  pointer_p ≠ nullptr →
  size < MAXIMUM_ALLOC_SIZE →
  heap g !! pointer_p = Some data →
  Z.of_nat (length data) = old_size →
  old_size ≤ size →
  lemon_malloc (vmm g) size = (new_addr, v') →
  new_addr ≠ nullptr → new_addr ≠ pointer_p →
  ∃ g',
    ReallocateData pointer_p old_size size (a, g) = (Val new_addr, (a, g')) ∧
    heap g' !! new_addr =
      Some (data ++ replicate (Z.to_nat (size - old_size)) Undef) ∧
    heap g' !! pointer_p = None ∧
    (∀ other, other ≠ pointer_p → other ≠ new_addr →
       heap g' !! other = heap g !! other) ∧
    calls g' = lemon_free_call pointer_p :: lemon_malloc_call size :: calls g.
Proof.
  intros Hl Hp Hsize Hdata Hlen Hgrow Hv Hnew Hfresh.
  apply Z.leb_gt in Hsize.
  unfold ReallocateData. rewrite decide_False by done. rewrite Hsize, Hl.
  unfold mbind, M_bind. simpl. rewrite Hv. simpl.
  rewrite decide_False by done.
  unfold memcpy. rewrite (lookup_insert_ne _ new_addr pointer_p) by done.
  rewrite Hdata. simpl.
  rewrite lookup_insert_eq. simpl.
  rewrite length_replicate.
  rewrite decide_True by lia.
  simpl. eexists. split; [reflexivity|]. simpl.
  split_and!.
  - rewrite lookup_delete_ne by done. rewrite lookup_insert_eq.
    assert (Z.to_nat old_size = length data) as -> by lia.
    rewrite firstn_all, drop_replicate. do 3 f_equal. lia.
  - by rewrite lookup_delete_eq.
  - intros other Hother1 Hother2.
    rewrite lookup_delete_ne by done.
    by rewrite !lookup_insert_ne by done.
  - done.
Qed.

(** X12: with the pool, an allocation followed by the free of the pointer
    it returned leaves the memory as it was, when the pool picked an address
    that was not live: the region exists, with indeterminate content of the
    requested size, between the two calls only. *)
Theorem lemon_allocate_free_memory (size pointer_p free_size : Z)
    (a : Allocator) (g : globals) (v' : vmm_t) :
  LEMON_MALLOC bld = true →
  size < MAXIMUM_ALLOC_SIZE →
  lemon_malloc (vmm g) size = (pointer_p, v') →
  pointer_p ≠ nullptr →
  heap g !! pointer_p = None →
  ∃ g1 g2,
    AllocateData size (a, g) = (Val pointer_p, (a, g1)) ∧
    heap g1 !! pointer_p = Some (replicate (Z.to_nat size) Undef) ∧
    FreeData pointer_p free_size (a, g1) = (Val tt, (a, g2)) ∧
    heap g2 = heap g ∧
    vmm g2 = lemon_free v' pointer_p.
Proof.
  intros Hl Hsize Hv Hp Hfresh.
  pose proof production_build as Hd.
  apply Z.leb_gt in Hsize.
  unfold AllocateData, FreeData. rewrite Hsize, Hl, Hd.
  rewrite decide_False by done.
  unfold mbind, M_bind, when. rewrite !D_ASSERT_release by done.
  simpl. rewrite Hv. simpl. rewrite decide_False by done.
  eexists _, _. split; [reflexivity|]. simpl.
  rewrite lookup_insert_eq. split; [done|].
  rewrite D_ASSERT_release by done. simpl.
  split; [reflexivity|]. simpl.
  split; [|done]. by rewrite delete_insert_id.
Qed.

(** X16: with the pool, a pointer must not be used again once it was
    released.  [ReallocateData] on a pointer whose region is not live (never
    allocated, freed, or already reallocated) is undefined behaviour,
    whatever address the pool picks for the new region: the copy reads from
    a region that does not exist.  In particular this holds right after
    [FreeData] of that pointer. *)
Theorem lemon_use_after_release (pointer_p old_size size free_size : Z)
    (a : Allocator) (g : globals) :
  LEMON_MALLOC bld = true →
  pointer_p ≠ nullptr →
  size < MAXIMUM_ALLOC_SIZE →
  (heap g !! pointer_p = None →
   fst (ReallocateData pointer_p old_size size (a, g)) = Undefined) ∧
  fst (ReallocateData pointer_p old_size size
         (snd (FreeData pointer_p free_size (a, g)))) = Undefined.
Proof.
  intros Hl Hp Hsize.
  pose proof production_build as Hd.
  apply Z.leb_gt in Hsize.
  assert (∀ g0, heap g0 !! pointer_p = None →
            fst (ReallocateData pointer_p old_size size (a, g0)) = Undefined) as Hdead.
  { intros g0 Hnone.
    unfold ReallocateData. rewrite decide_False by done. rewrite Hsize, Hl.
    unfold mbind, M_bind. simpl.
    destruct (lemon_malloc (vmm g0) size) as [new_addr v']. simpl.
    unfold memcpy. case_decide as Hnull.
    - by rewrite Hnone.
    - destruct (decide (new_addr = pointer_p)) as [->|Hne].
      + rewrite lookup_insert_eq. simpl. by rewrite decide_False by tauto.
      + rewrite (lookup_insert_ne _ new_addr pointer_p) by done.
        by rewrite Hnone. }
  split; [by apply Hdead|].
  unfold FreeData. rewrite decide_False by done. rewrite Hd, Hl.
  unfold mbind, M_bind, when. rewrite D_ASSERT_release by done. simpl.
  apply Hdead. simpl. by rewrite lookup_delete_eq.
Qed.

End ProductionBuild.

(** *** Owned buffers *)

Section Ownership.

Context {P : Platform}.

(** X9: every way the file has to make or change a buffer keeps it
    consistent: a buffer that holds a pointer has an allocator, and a buffer
    that holds none has size zero.  This covers the default constructor, the
    constructor from a pointer, both buffers after a move construction and
    after a move assignment, and the buffer [Reset] returns. *)
Theorem buffers_stay_consistent :
  consistent AllocatedData_default ∧
  (∀ allocator_p pointer_p size buffer,
     AllocatedData_new allocator_p pointer_p size = Val buffer → consistent buffer) ∧
  (∀ other, consistent other →
     consistent (fst (AllocatedData_move other)) ∧
     consistent (snd (AllocatedData_move other))) ∧
  (∀ this other, consistent this → consistent other →
     consistent (fst (AllocatedData_assign this other)) ∧
     consistent (snd (AllocatedData_assign this other))) ∧
  (∀ this w buffer w', consistent this →
     Reset this w = (Val buffer, w') → consistent buffer).
Proof.
  split_and!.
  - by split.
  - intros allocator_p pointer_p size buffer. unfold AllocatedData_new.
    case_decide; [done|]. intros [= <-]. split; simpl; [eauto|done].
  - intros [a p s] [Ha Hs]. simpl in *. split; split; simpl; done.
  - intros [a1 p1 s1] [a2 p2 s2] H1 H2. simpl. by split.
  - intros this w buffer w' Hthis. unfold Reset.
    case_decide as Hp; [by intros [= <- _]|].
    unfold mbind, M_bind.
    destruct (D_ASSERT _ _ _) as [[] ?]; [|done..].
    destruct (on_allocator _ _ _) as [[] ?]; [|done..].
    intros [= <- _]. by split.
Qed.

(** X10: ownership does not multiply under a move.  After a move
    construction from a buffer that holds a region, destroying the source
    changes nothing, and destroying the new buffer makes the one call that
    hands the region back: [lemon_free] of the pointer the source held,
    which takes the region out of the pool's memory. *)
Theorem move_then_destroy_both (other : AllocatedData) (w : world) (addr : Z)
    (a : Allocator) :
  pointer other ≠ nullptr →
  allocator other = Some addr →
  allocators w !! addr = Some a →
  AllocatedData_destroy (snd (AllocatedData_move other)) w = (Val tt, w) ∧
  AllocatedData_destroy (fst (AllocatedData_move other)) w =
    (Val tt,
     {| allocators := allocators w;
        outside :=
          {| backend := backend (outside w);
             vmm := lemon_free (vmm (outside w)) (pointer other);
             heap := delete (pointer other) (heap (outside w));
             calls := lemon_free_call (pointer other) :: calls (outside w) |} |}).
Proof.
  intros Hp Haddr Ha.
  destruct other as [oa op os]. simpl in *. split.
  - by apply AllocatedData_destroy_released.
  - unfold AllocatedData_destroy, mbind, M_bind.
    by rewrite (Reset_run {| allocator := oa; pointer := op; allocated_size := os |}
                  w addr a).
Qed.


(** X14: the draft buffer.  It may be constructed around a null pointer,
    and is then inert: [Reset] never looks for its allocator.  Constructed
    around a pointer, its [Reset] hands that pointer and the size it was
    constructed with to [free_function] of the referenced allocator, once,
    and clears the pointer but keeps the size. *)
Theorem Draft_buffer_round_trip (allocator_p pointer_p size : Z) (w : Draft.world) :
  (pointer_p = nullptr →
   Draft.Reset (Draft.AllocatedData_new allocator_p pointer_p size) w =
     (Val (Draft.AllocatedData_new allocator_p pointer_p size), w)) ∧
  (pointer_p ≠ nullptr →
   ∀ a, Draft.allocators w !! allocator_p = Some a →
     ∃ w1,
       Draft.Reset (Draft.AllocatedData_new allocator_p pointer_p size) w =
         (Val (Draft.AllocatedData_new allocator_p nullptr size), w1) ∧
       Draft.allocators w1 = Draft.allocators w ∧
       Draft.calls (Draft.outside w1) =
         Draft.free_call pointer_p size :: Draft.calls (Draft.outside w) ∧
       Draft.backend (Draft.outside w1) =
         Draft.free_function a (Draft.backend (Draft.outside w)) pointer_p size).
Proof.
  split.
  - intros ->. reflexivity.
  - intros Hp a Ha. unfold Draft.Reset. simpl. rewrite decide_False by done.
    unfold mbind, M_bind, Draft.on_allocator, Draft.FreeData. simpl.
    rewrite Ha. rewrite decide_False by done. simpl.
    eexists. split; [reflexivity|]. simpl. by rewrite insert_id.
Qed.

End Ownership.

(** ** The further properties at work on the test platform *)

Lemma one_region_tracked :
  tracked (S := test_settings extended_debug) one_region 4096 1024.
Proof. split; [discriminate|]. intros _. by exists "main". Defined.

(** The tracked region reallocated to 2048 bytes at 5120. *)
Lemma DebugInfo_ReallocateData_accounting_witness :
  DebugInfo_ReallocateData (S := test_settings extended_debug)
    4096 5120 1024 2048 one_region =
  (Val tt, {| allocation_count := 2048; pointers := {[ 5120 := (2048, "main") ]} |}).
Proof.
  apply (DebugInfo_ReallocateData_accounting (S := test_settings extended_debug)
           one_region 4096 5120 1024 2048).
  exact one_region_tracked.
Defined.

(** The tracked region freed with a size it does not have. *)
Lemma DebugInfo_FreeData_checks_witness :
  DebugInfo_FreeData (S := test_settings extended_debug) 4096 512 one_region =
  (AssertionFailed,
   {| allocation_count := 512; pointers := {[ 4096 := (1024, "main") ]} |}).
Proof.
  apply (proj2 (proj2 (DebugInfo_FreeData_checks (S := test_settings extended_debug)
                         one_region 4096 512 eq_refl))).
  - discriminate.
  - reflexivity.
  - intros trace Hreg. vm_compute in Hreg. discriminate Hreg.
Defined.

(** The tracked region freed twice. *)
Lemma double_free_is_caught_witness :
  ∃ d1,
    DebugInfo_FreeData (S := test_settings extended_debug) 4096 1024 one_region =
      (Val tt, d1) ∧
    pointers d1 !! 4096 = None ∧
    fst (DebugInfo_FreeData (S := test_settings extended_debug) 4096 1024 d1) =
      AssertionFailed.
Proof.
  apply (double_free_is_caught (S := test_settings extended_debug)
           one_region 4096 1024 1024).
  - reflexivity.
  - reflexivity.
  - exact one_region_tracked.
Defined.

(** 512 bytes at 8192 recorded next to the tracked region, and freed. *)
Lemma DebugInfo_allocate_free_witness :
  DebugInfo_FreeData (S := test_settings extended_debug) 8192 512
    (snd (DebugInfo_AllocateData (S := test_settings extended_debug)
            8192 512 one_region)) =
  (Val tt, one_region).
Proof.
  refine (proj1 (DebugInfo_allocate_free (S := test_settings extended_debug)
                   one_region 8192 512 _ _) _ _).
  - split; [discriminate|reflexivity].
  - split; [discriminate|reflexivity].
  - reflexivity.
  - reflexivity.
Defined.

(** A second region of 512 bytes recorded at 8192. *)
Lemma counter_matches_registry_kept_witness :
  counter_matches_registry
    (snd (DebugInfo_AllocateData (S := test_settings extended_debug)
            8192 512 one_region)).
Proof.
  apply (proj1 (proj2 (counter_matches_registry_kept
                         (S := test_settings extended_debug)
                         one_region 8192 0 512 0 eq_refl) eq_refl)).
  reflexivity.
Defined.

(** 1024 bytes at 4096 recorded in a new debug info. *)
Lemma leak_check_witness :
  fst (AllocatorDebugInfo_destroy (S := test_settings extended_debug)
         AllocatorDebugInfo_new) = Val tt ∧
  ∃ d1,
    DebugInfo_AllocateData (S := test_settings extended_debug)
      4096 1024 AllocatorDebugInfo_new = (Val tt, d1) ∧
    fst (AllocatorDebugInfo_destroy (S := test_settings extended_debug) d1) =
      AssertionFailed ∧
    leak_report (S := test_settings extended_debug) d1 =
      {[ 4096 := (1024, "main") ]} ∧
    DebugInfo_FreeData (S := test_settings extended_debug) 4096 1024 d1 =
      (Val tt, AllocatorDebugInfo_new) ∧
    leak_report (S := test_settings extended_debug) AllocatorDebugInfo_new = ∅.
Proof.
  apply (leak_check (S := test_settings extended_debug) 4096 1024).
  - reflexivity.
  - split; reflexivity.
Defined.

(** 1024 bytes at 4096, resized to 2048 bytes at 5120, and freed. *)
Lemma resized_lifetime_counter_witness :
  ∃ d1 d2,
    DebugInfo_AllocateData (S := test_settings extended_debug)
      4096 1024 AllocatorDebugInfo_new = (Val tt, d1) ∧
    DebugInfo_ReallocateData (S := test_settings extended_debug)
      4096 5120 1024 2048 d1 = (Val tt, d2) ∧
    allocation_count d2 = 2048 ∧
    DebugInfo_FreeData (S := test_settings extended_debug) 5120 2048 d2 =
      (Val tt, AllocatorDebugInfo_new).
Proof.
  apply (resized_lifetime_counter (S := test_settings extended_debug)
           AllocatorDebugInfo_new 4096 5120 1024 2048).
  - discriminate.
  - discriminate.
  - discriminate.
  - reflexivity.
  - reflexivity.
  - reflexivity.
  - reflexivity.
Defined.

(** The three calls in the build as written. *)
Lemma production_leaves_allocator_witness :
  fst (snd (AllocateData 1024 pattern_state)) = fst pattern_state ∧
  fst (snd (FreeData 4096 100 pattern_state)) = fst pattern_state ∧
  fst (snd (ReallocateData 4096 100 200 pattern_state)) = fst pattern_state.
Proof.
  apply (production_leaves_allocator (P := test_platform (2 ^ 20))
           4096 100 1024 pattern_state).
  reflexivity.
Defined.


(** The pattern grown from 100 to 200 bytes. *)
Lemma ReallocateData_lemon_grow_result_witness :
  ∃ g',
    ReallocateData 4096 100 200 pattern_state = (Val 8192, (fst pattern_state, g')) ∧
    heap g' !! 8192 = Some (pattern 100 ++ replicate 100 Undef) ∧
    heap g' !! 4096 = None ∧
    (∀ other, other ≠ 4096 → other ≠ 8192 →
       heap g' !! other = heap (snd pattern_state) !! other) ∧
    calls g' = [lemon_free_call 4096; lemon_malloc_call 200].
Proof.
  apply (ReallocateData_lemon_grow_result (P := test_platform (2 ^ 20))
           4096 100 200 8192 (fst pattern_state) (snd pattern_state) 8392 (pattern 100)).
  - reflexivity.
  - discriminate.
  - reflexivity.
  - reflexivity.
  - reflexivity.
  - discriminate.
  - reflexivity.
  - discriminate.
  - discriminate.
Defined.

(** 64 bytes allocated next to the pattern, and freed with another size. *)
Lemma lemon_allocate_free_memory_witness :
  ∃ g1 g2,
    AllocateData 64 pattern_state = (Val 8192, (fst pattern_state, g1)) ∧
    heap g1 !! 8192 = Some (replicate 64 Undef) ∧
    FreeData 8192 8 (fst pattern_state, g1) = (Val tt, (fst pattern_state, g2)) ∧
    heap g2 = heap (snd pattern_state) ∧
    vmm g2 = 8256.
Proof.
  apply (lemon_allocate_free_memory (P := test_platform (2 ^ 20))
           64 8192 8 (fst pattern_state) (snd pattern_state) 8256).
  - reflexivity.
  - reflexivity.
  - reflexivity.
  - discriminate.
  - reflexivity.
Defined.

(** The pattern reallocated after it was freed. *)
Lemma lemon_use_after_release_witness :
  fst (ReallocateData 4096 100 200 (snd (FreeData 4096 100 pattern_state))) = Undefined.
Proof.
  apply (proj2 (lemon_use_after_release (P := test_platform (2 ^ 20))
                  4096 100 200 100 (fst pattern_state) (snd pattern_state)
                  eq_refl ltac:(discriminate) eq_refl)).
Defined.

(** The first buffer after [Reset] in the build as written. *)
Lemma buffers_stay_consistent_witness :
  consistent
    {| allocator := Some 1; pointer := nullptr; allocated_size := 0 |}.
Proof.
  apply (proj2 (proj2 (proj2 (proj2
           (buffers_stay_consistent (P := test_platform (2 ^ 20)))))))
    with (this := first_buffer) (w := test_world (2 ^ 20))
         (w' := snd (Reset first_buffer (test_world (2 ^ 20)))).
  - split; [by eexists|discriminate].
  - reflexivity.
Defined.

(** The first buffer moved, and both buffers destroyed. *)
Lemma move_then_destroy_both_witness :
  AllocatedData_destroy (snd (AllocatedData_move first_buffer)) (test_world (2 ^ 20)) =
    (Val tt, test_world (2 ^ 20)) ∧
  AllocatedData_destroy (fst (AllocatedData_move first_buffer)) (test_world (2 ^ 20)) =
    (Val tt,
     @Build_world (test_platform (2 ^ 20))
       (allocators (test_world (2 ^ 20)))
       (@Build_globals (test_platform (2 ^ 20))
          4096 4096 (delete 4096 ∅) [lemon_free_call 4096])).
Proof.
  apply (move_then_destroy_both (P := test_platform (2 ^ 20))
           first_buffer (test_world (2 ^ 20)) 1 (test_allocator (2 ^ 20))).
  - discriminate.
  - reflexivity.
  - reflexivity.
Defined.


(** A draft buffer around 16 bytes at 8192. *)
Lemma Draft_buffer_round_trip_witness :
  ∃ w1,
    Draft.Reset (Draft.AllocatedData_new 1 8192 16) draft_world =
      (Val (Draft.AllocatedData_new 1 nullptr 16), w1) ∧
    Draft.allocators w1 = Draft.allocators draft_world ∧
    Draft.calls (Draft.outside w1) = [Draft.free_call 8192 16] ∧
    Draft.backend (Draft.outside w1) = 4096.
Proof.
  apply (proj2 (Draft_buffer_round_trip (P := test_platform (2 ^ 20))
                  1 8192 16 draft_world) ltac:(discriminate)
           (@Draft.Build_Allocator (test_platform (2 ^ 20))
              (bump (2 ^ 20)) (λ next _ _, next)
              (λ next _ size, bump (2 ^ 20) next size))).
  reflexivity.
Defined.
